(** * graph_utils.py: a shallow embedding of mitosheet's graph helpers

    Source: src/mitosheet/mitosheet/step_performers/graph_steps/graph_utils.py.
    Python [str] values are Rocq [string]s; indices returned by [str.find]
    and used by slicing are [Z]s, so that [-1] and Python's negative-index
    conventions can be written out. *)

From Stdlib Require Import String Ascii List ZArith Lia Bool.
From Stdlib Require Import DecimalString DecimalNat Finite.
Import ListNotations.
Open Scope string_scope.
Open Scope Z_scope.
Set Warnings "-register-all".

(** ** Python string primitives *)

Module Py.

(** [s[n:]] for a non-negative [n]. *)
Fixpoint str_drop (n : nat) (s : string) : string :=
  match n, s with
  | O, _ => s
  | S n', EmptyString => EmptyString
  | S n', String _ s' => str_drop n' s'
  end.

(** Position of the first occurrence of [sub] in [s], searching from 0. *)
Fixpoint find0 (sub s : string) : option nat :=
  if prefix sub s then Some O
  else match s with
       | EmptyString => None
       | String _ s' => option_map S (find0 sub s')
       end.

Definition len (s : string) : Z := Z.of_nat (String.length s).

(** [s.find(sub, start)]: a negative [start] counts from the end (clamped
    at 0); a [start] past the end finds nothing; the match must lie inside
    [s[start:]]; [-1] when there is none. *)
Definition find (s sub : string) (start : Z) : Z :=
  let n := len s in
  let st := if start <? 0 then Z.max 0 (start + n) else start in
  if n <? st then -1
  else match find0 sub (str_drop (Z.to_nat st) s) with
       | Some i => st + Z.of_nat i
       | None => -1
       end.

(** Normalisation of a slice bound: negative bounds count from the end,
    every bound is clamped to [0, len s]. *)
Definition slice_bound (n x : Z) : Z :=
  if x <? 0 then Z.max 0 (x + n) else Z.min x n.

(** [s[a:b]]. *)
Definition slice (s : string) (a b : Z) : string :=
  let n := len s in
  let a' := slice_bound n a in
  let b' := slice_bound n b in
  if a' <? b' then substring (Z.to_nat a') (Z.to_nat (b' - a')) s else EmptyString.

(** [sep.join(l)]. *)
Fixpoint join (sep : string) (l : list string) : string :=
  match l with
  | [] => EmptyString
  | [x] => x
  | x :: xs => x ++ sep ++ join sep xs
  end.

(** [str(n)] for a non-negative integer. *)
Definition str_nat (n : nat) : string := NilEmpty.string_of_uint (Nat.to_uint n).

(** [x in l] for a list of strings. *)
Definition str_in (x : string) (l : list string) : bool :=
  existsb (String.eqb x) l.

End Py.

Import Py.

(** ** get_html_and_script_from_figure (lines 147-196) *)

Definition DIV_OPEN : string := "<div id=".
Definition DIV_CLOSE : string := "</div>".
(** The double-quote character. *)
Definition QUOTE : string := String "034"%char EmptyString.
Definition SCRIPT_OPEN : string :=
  "<script type=" ++ QUOTE ++ "text/javascript" ++ QUOTE ++ ">".
Definition SCRIPT_CLOSE : string := "</script>".

(** The newline character. *)
Definition NEWLINE : string := String "010"%char EmptyString.

(** The result dictionary [{"html": div, "script": script}]. *)
Record html_and_script := { html : string; script : string }.

(** Line 178: [original_html[find('<div id='):find('</div>', find('<div id='))]]. *)
Definition graph_div (original_html : string) : string :=
  slice original_html (find original_html DIV_OPEN 0)
    (find original_html DIV_CLOSE (find original_html DIV_OPEN 0)).

(** Lines 182-194: the [while index < len(original_html)] loop, with [script]
    as accumulator. Each iteration that continues moves [index] strictly
    forward ([script_end + 9 > index]), so [fuel] = [len + 1] iterations
    always suffice; the [O] case is never reached from [script_of]. *)
Fixpoint script_loop (fuel : nat) (original_html : string) (index : Z)
    (script : string) : string :=
  match fuel with
  | O => script
  | S fuel' =>
      if index <? len original_html then
        let script_start := find original_html SCRIPT_OPEN index in
        let script_end := find original_html SCRIPT_CLOSE script_start in
        if (script_start =? -1) || (script_end =? -1) then script
        else
          let script_start := script_start + len SCRIPT_OPEN in
          let script := script ++ slice original_html script_start script_end
                               ++ ";" ++ NEWLINE in
          script_loop fuel' original_html (script_end + 9) script
      else script
  end.

Definition script_of (original_html : string) : string :=
  script_loop (S (String.length original_html)) original_html 0 EmptyString.

(** The function itself: [fig.write_html(...)] is plotly's renderer, a black
    box taken as the argument [write_html]; [buffer.getvalue()] is its output. *)
Definition get_html_and_script_from_figure {figure : Type}
    (write_html : figure -> Z -> Z -> bool -> string)
    (fig : figure) (height width : Z) (include_plotlyjs : bool) : html_and_script :=
  let original_html := write_html fig height width include_plotlyjs in
  {| html := graph_div original_html; script := script_of original_html |}.

(** ** get_graph_title (lines 16-40 and 98-125) *)

Definition SCATTER : string := "scatter".
Definition LINE : string := "line".
Definition BAR : string := "bar".
Definition HISTOGRAM : string := "histogram".
Definition BOX : string := "box".
Definition STRIP : string := "strip".
Definition VIOLIN : string := "violin".
Definition ECDF : string := "ecdf".
Definition DENSITY_HEATMAP : string := "density heatmap".
Definition DENSITY_CONTOUR : string := "density contour".

(** The dict literal [GRAPH_TITLE_LABELS], in its insertion order. *)
Definition GRAPH_TITLE_LABELS : list (string * string) :=
  [ (SCATTER, "scatter plot");
    (LINE, "line");
    (BAR, "bar chart");
    (BOX, "box plot");
    (HISTOGRAM, "histogram");
    (STRIP, "strip");
    (VIOLIN, "violin");
    (ECDF, "ecdf");
    (DENSITY_HEATMAP, "density heatmap");
    (DENSITY_CONTOUR, "density contour") ].

(** [d[k]] on a dict held as an association list: [None] is the [KeyError]. *)
Fixpoint dict_lookup {V : Type} (d : list (string * V)) (k : string) : option V :=
  match d with
  | [] => None
  | (k', v) :: d' => if String.eqb k k' then Some v else dict_lookup d' k
  end.

(** [get_graph_title]: [ColumnHeader] is any type with its [str]; the result
    is [None] exactly when [GRAPH_TITLE_LABELS[graph_type]] raises. *)
Definition get_graph_title {ColumnHeader : Type} (str : ColumnHeader -> string)
    (x_axis_column_headers y_axis_column_headers : list ColumnHeader)
    (filtered : bool) (graph_type : string) : option string :=
  let graph_filter_label : option string :=
    if filtered then Some "(first 1000 rows)" else None in
  let all_column_headers :=
    join ", " (map str (x_axis_column_headers ++ y_axis_column_headers)) in
  match dict_lookup GRAPH_TITLE_LABELS graph_type with
  | None => None
  | Some graph_title_label =>
      let graph_title_components :=
        match graph_filter_label with
        | Some l => [all_column_headers; l; graph_title_label]
        | None => [all_column_headers; graph_title_label]
        end in
      Some (join " " graph_title_components)
  end.

(** ** get_new_graph_tab_name (lines 128-144) *)

(** A graph's entry of [graph_data_dict]; only ["graphTabName"] is read. *)
Record graph_data := { graphTabName : string }.

Definition graph_name (n : nat) : string := "graph" ++ str_nat n.

(** The [while new_graph_name in all_graph_names] loop, from
    [graph_number_indicator]; [fuel] bounds the iterations. *)
Fixpoint probe_graph_name (fuel : nat) (all_graph_names : list string)
    (graph_number_indicator : nat) : string :=
  let new_graph_name := graph_name graph_number_indicator in
  match fuel with
  | O => new_graph_name
  | S fuel' =>
      if str_in new_graph_name all_graph_names
      then probe_graph_name fuel' all_graph_names (S graph_number_indicator)
      else new_graph_name
  end.

(** [graph_data_dict] as the list of its items; [len(all_graph_names) + 1]
    probes always suffice (at most that many names can be taken). *)
Definition get_new_graph_tab_name (graph_data_dict : list (string * graph_data)) : string :=
  let all_graph_names := map (fun kv => graphTabName (snd kv)) graph_data_dict in
  probe_graph_name (S (List.length all_graph_names)) all_graph_names 0.

(** ** param_dict_to_code (lines 42-95) *)

(** The non-dict values that reach [column_header_to_transpiled_code]. *)
Inductive scalar :=
| SStr (s : string)
| SInt (z : Z)
| SBool (b : bool)
| SNone.

(** A params dictionary: a value is a nested dict or a scalar; keys keep
    their insertion order. *)
Inductive param_value :=
| PScalar (v : scalar)
| PDict (d : list (string * param_value)).

Definition TAB : string := "    ".

(** [s * n] for a string [s]. *)
Fixpoint str_repeat (s : string) (n : nat) : string :=
  match n with
  | O => EmptyString
  | S n' => s ++ str_repeat s n'
  end.

(** The [for key, value in param_dict.items()] loop (lines 68-87), for a
    given rendering [chunk key value] of one entry ([code_chunk]),
    [NEWLINE_CONSTANT] and indentation [TAB_CONSTANT * (level + 1)]. *)
Fixpoint add_entries (chunk : string -> param_value -> string)
    (NEWLINE_CONSTANT indent : string) (items : list (string * param_value))
    (value_num : nat) (code : string) : string :=
  match items with
  | [] => code
  | (key, value) :: items' =>
      let code_chunk := chunk key value in
      let code := if Nat.eqb value_num 0 then code
                  else code ++ ", " ++ NEWLINE_CONSTANT in
      let value_num := S value_num in
      let code := code ++ indent ++ code_chunk in
      add_entries chunk NEWLINE_CONSTANT indent items' value_num code
  end.

Section Serializer.

(** [column_header_to_transpiled_code] (mitosheet.transpiler.transpile_utils),
    the literal of a scalar, is left abstract. *)
Variable column_header_to_transpiled_code : scalar -> string.

(** [param_dict_to_code] on the dict held by a [PDict]; the function of the
    source is [param_dict_to_code] below. *)
Fixpoint param_value_to_code (p : param_value) (level : nat)
    (as_single_line : bool) : string :=
  match p with
  | PScalar v => column_header_to_transpiled_code v  (* not reached: only dicts are passed *)
  | PDict param_dict =>
      let TAB_CONSTANT := if as_single_line then EmptyString else TAB in
      let NEWLINE_CONSTANT := if as_single_line then EmptyString else NEWLINE in
      let code := if Nat.eqb level 0 then NEWLINE_CONSTANT
                  else "dict(" ++ NEWLINE_CONSTANT in
      let chunk key value :=
        match value with
        | PDict _ =>
            (* the recursive call passes only [level=level + 1] *)
            key ++ " = " ++ param_value_to_code value (S level) false
        | PScalar v => key ++ "=" ++ column_header_to_transpiled_code v
        end in
      let code := add_entries chunk NEWLINE_CONSTANT
                    (str_repeat TAB_CONSTANT (S level)) param_dict 0 code in
      if Nat.eqb level 0 then code ++ NEWLINE_CONSTANT
      else code ++ NEWLINE_CONSTANT ++ str_repeat TAB_CONSTANT level ++ ")"
  end.

Definition param_dict_to_code (param_dict : list (string * param_value))
    (level : nat) (as_single_line : bool) : string :=
  param_value_to_code (PDict param_dict) level as_single_line.

End Serializer.

(** Modelled from the spec: [column_header_to_transpiled_code] of
    mitosheet.transpiler.transpile_utils (not in src/), the value-to-literal
    converter: a string as a quoted literal, an integer in decimal, a boolean
    as [True]/[False], [None] as [None]. Used only to evaluate the
    serializer at concrete inputs. *)
Definition transpiled_literal (v : scalar) : string :=
  match v with
  | SStr s => "'" ++ s ++ "'"
  | SInt z => if z <? 0 then "-" ++ str_nat (Z.to_nat (- z)) else str_nat (Z.to_nat z)
  | SBool true => "True"
  | SBool false => "False"
  | SNone => "None"
  end.

(** ** The entry layout of the serializer's output *)

Fixpoint concat_strs (l : list string) : string :=
  match l with
  | [] => EmptyString
  | x :: xs => x ++ concat_strs xs
  end.

(** How one entry [key: value] is rendered: [key=<literal>] for a scalar,
    [key = dict(...)] for a nested dict, at any [as_single_line]. *)
Definition entry_code (conv : scalar -> string) (level : nat)
    (kv : string * param_value) : string :=
  let (key, value) := kv in
  match value with
  | PDict d => key ++ " = " ++ param_dict_to_code conv d (S level) false
  | PScalar v => key ++ "=" ++ conv v
  end.

(** The whole output laid out entry by entry: the opening, the first entry
    after its indentation, each further entry after [", "], the newline
    constant and the indentation, then the closing. *)
Definition param_dict_layout (conv : scalar -> string)
    (param_dict : list (string * param_value)) (level : nat)
    (as_single_line : bool) : string :=
  let TAB_CONSTANT := if as_single_line then EmptyString else TAB in
  let NEWLINE_CONSTANT := if as_single_line then EmptyString else NEWLINE in
  let indent := str_repeat TAB_CONSTANT (S level) in
  (if Nat.eqb level 0 then NEWLINE_CONSTANT else "dict(" ++ NEWLINE_CONSTANT) ++
  match param_dict with
  | [] => EmptyString
  | kv :: kvs =>
      indent ++ entry_code conv level kv ++
      concat_strs (map (fun kv' => ", " ++ NEWLINE_CONSTANT ++ indent
                                   ++ entry_code conv level kv') kvs)
  end ++
  (if Nat.eqb level 0 then NEWLINE_CONSTANT
   else NEWLINE_CONSTANT ++ str_repeat TAB_CONSTANT level ++ ")").

(** ** The document shapes the claims speak of *)

(** A script block preceded by the text [gap] since the previous block:
    [gap + '<script type="text/javascript">' + body + '</script>']. *)
Definition script_block_text (blk : string * string) : string :=
  fst blk ++ SCRIPT_OPEN ++ snd blk ++ SCRIPT_CLOSE.

Fixpoint script_blocks_text (blks : list (string * string)) : string :=
  match blks with
  | [] => EmptyString
  | blk :: blks' => script_block_text blk ++ script_blocks_text blks'
  end.

(** The bodies in document order, each followed by [;] and a newline. *)
Fixpoint script_bodies (blks : list (string * string)) : string :=
  match blks with
  | [] => EmptyString
  | (_, body) :: blks' => body ++ ";" ++ NEWLINE ++ script_bodies blks'
  end.

(** A well-formed block: the gap holds no opening tag (the block's own
    opening tag is the first one after the gap's start) and the body holds
    no closing tag (the closing tag after the body is the first one). *)
Definition well_formed_block (blk : string * string) : Prop :=
  find0 SCRIPT_OPEN (fst blk ++ SCRIPT_OPEN) = Some (String.length (fst blk)) /\
  find0 SCRIPT_CLOSE (snd blk ++ SCRIPT_CLOSE) = Some (String.length (snd blk)).

(** ** get_column_header_from_optional_column_id_graph_param (lines 198-206) *)

(** The values of [graph_creation_params] that matter: an integer, a string
    (a column id), or any other hashable value (a [bool] is an integer). *)
Inductive graph_param :=
| GInt (i : Z)
| GStr (s : string)
| GOther.

(** Python's outcomes for this function: a value, or the exception raised. *)
Inductive py_result (A : Type) :=
| PyOk (a : A)
| PyKeyError
| PyIndexError
| PyTypeError.
Arguments PyOk {A} a.
Arguments PyKeyError {A}.
Arguments PyIndexError {A}.
Arguments PyTypeError {A}.

(** [l[i]] for a Python list and an integer [i]: negative indices count from
    the end; [None] is the [IndexError]. *)
Definition py_list_index {A : Type} (l : list A) (i : Z) : option A :=
  let n := Z.of_nat (List.length l) in
  if (0 <=? i) && (i <? n) then nth_error l (Z.to_nat i)
  else if (- n <=? i) && (i <? 0) then nth_error l (Z.to_nat (n + i))
  else None.

Section ColumnHeaderParam.
Variable ColumnHeader : Type.

(** [state.column_ids.get_column_header_by_id] (not in src/), called only on
    an id that is a key of the sheet's map. *)
Variable get_column_header_by_id : Z -> string -> ColumnHeader.

(** [column_id_to_column_header] is [state.column_ids.column_id_to_column_header]
    (not in src/), taken as a list with one dict per sheet, as the indexing by
    [sheet_index] uses it. Indexing a list with a non-integer raises
    [TypeError]. *)
Definition get_column_header_from_optional_column_id_graph_param
    (column_id_to_column_header : list (list (string * ColumnHeader)))
    (graph_creation_params : list (string * graph_param)) (param_name : string)
    : py_result (option ColumnHeader) :=
  match dict_lookup graph_creation_params "sheet_index" with
  | None => PyKeyError
  | Some sheet_index =>
      match dict_lookup graph_creation_params param_name with
      | None => PyOk None
      | Some column_id =>
          match sheet_index with
          | GInt i =>
              match py_list_index column_id_to_column_header i with
              | None => PyIndexError
              | Some headers =>
                  match column_id with
                  | GStr id =>
                      match dict_lookup headers id with
                      | Some _ => PyOk (Some (get_column_header_by_id i id))
                      | None => PyOk None
                      end
                  | _ => PyOk None
                  end
              end
          | _ => PyTypeError
          end
      end
  end.

End ColumnHeaderParam.

(** * mitosheet_installer_steps.py *)

(** The collaborators these steps call (mitoinstaller.commands and
    mitoinstaller.log_utils, not in src/) are taken from an environment; a
    call that raises is a [Some message]. *)
Record installer_env := {
  jupyterlab_metadata : option string * list string;
  install_pip_packages_outcome : string -> bool -> bool -> option string;
  uninstall_pip_packages_outcome : string -> option string;
  run_command_outcome : list string -> option string;
  recent_traceback : string;
  input_answer : string -> string;
  sys_argv : list string;
  sys_executable : string }.

(** The calls a step makes, in order. *)
Inductive installer_call :=
| CallGetJupyterlabMetadata
| CallInstallPipPackages (package : string) (test_pypi user_install : bool)
| CallUninstallPipPackages (package : string)
| CallRunCommand (args : list string)
| CallGetRecentTraceback
| CallInput (prompt : string)
| CallLog (event : string).

(** An exception: the one raised by the dependency check (its message is
    ['Installed extensions ' + str(extension_names)]), or one raised by a
    collaborator. *)
Inductive installer_exn :=
| InstalledExtensions (extension_names : list string)
| CollaboratorError (message : string).

(** Reader (environment), writer (the calls) and exceptions. *)
Definition IO (A : Type) : Type :=
  installer_env -> list installer_call -> (installer_exn + A) * list installer_call.

Definition io_ret {A : Type} (a : A) : IO A := fun _ t => (inr a, t).
Definition io_bind {A B : Type} (m : IO A) (k : A -> IO B) : IO B :=
  fun env t => match m env t with
               | (inl e, t') => (inl e, t')
               | (inr a, t') => k a env t'
               end.
Definition io_raise {A : Type} (e : installer_exn) : IO A := fun _ t => (inl e, t).
(** [try: m except: h(e)]. *)
Definition io_try {A : Type} (m : IO A) (h : installer_exn -> IO A) : IO A :=
  fun env t => match m env t with
               | (inl e, t') => h e env t'
               | r => r
               end.
Definition io_env : IO installer_env := fun env t => (inr env, t).

Notation "x <- m ;; k" := (io_bind m (fun x => k))
  (at level 61, m at next level, right associativity).
Notation "m ;;; k" := (io_bind m (fun _ => k)) (at level 61, right associativity).

(** A collaborator call: recorded, then its result or its exception. *)
Definition io_call (c : installer_call) (outcome : installer_env -> option string)
    : IO unit :=
  fun env t => match outcome env with
               | None => (inr tt, (t ++ [c])%list)
               | Some msg => (inl (CollaboratorError msg), (t ++ [c])%list)
               end.

Definition get_jupyterlab_metadata : IO (option string * list string) :=
  fun env t => (inr (jupyterlab_metadata env), (t ++ [CallGetJupyterlabMetadata])%list).

Definition install_pip_packages (package : string) (test_pypi user_install : bool)
    : IO unit :=
  io_call (CallInstallPipPackages package test_pypi user_install)
    (fun env => install_pip_packages_outcome env package test_pypi user_install).

Definition uninstall_pip_packages (package : string) : IO unit :=
  io_call (CallUninstallPipPackages package)
    (fun env => uninstall_pip_packages_outcome env package).

Definition run_command (args : list string) : IO unit :=
  io_call (CallRunCommand args) (fun env => run_command_outcome env args).

Definition get_recent_traceback : IO string :=
  fun env t => (inr (recent_traceback env), (t ++ [CallGetRecentTraceback])%list).

Definition input (prompt : string) : IO string :=
  fun env t => (inr (input_answer env prompt), (t ++ [CallInput prompt])%list).

Definition log (event : string) : IO unit := fun _ t => (inr tt, (t ++ [CallLog event])%list).

(** [str.strip()], [str.split('\n')], [str.lower()] on ASCII text. *)
Definition is_py_space (c : ascii) : bool :=
  let n := nat_of_ascii c in
  ((9 <=? n) && (n <=? 13))%nat || ((28 <=? n) && (n <=? 32))%nat.

Fixpoint drop_spaces (l : list ascii) : list ascii :=
  match l with
  | [] => []
  | c :: l' => if is_py_space c then drop_spaces l' else l
  end.

Definition py_strip (s : string) : string :=
  string_of_list_ascii
    (rev (drop_spaces (rev (drop_spaces (list_ascii_of_string s))))).

Fixpoint py_split_newline (s : string) : list string :=
  match s with
  | EmptyString => [EmptyString]
  | String c s' =>
      match py_split_newline s' with
      | [] => [] (* not reached: the result is never empty *)
      | w :: ws => if Ascii.eqb c "010"%char then EmptyString :: w :: ws
                   else String c w :: ws
      end
  end.

Definition py_lower_char (c : ascii) : ascii :=
  let n := nat_of_ascii c in
  if ((65 <=? n) && (n <=? 90))%nat then ascii_of_nat (n + 32) else c.

Fixpoint py_lower (s : string) : string :=
  match s with
  | EmptyString => EmptyString
  | String c s' => String (py_lower_char c) (py_lower s')
  end.

(** [l[-1]] on a non-empty list. *)
Definition py_last (l : list string) : string := last l EmptyString.

(** Lines 11-38. *)
Definition install_step_mitosheet_check_dependencies : IO unit :=
  meta <- get_jupyterlab_metadata ;;
  let (jupyterlab_version, extension_names) := meta in
  match jupyterlab_version with
  | None => io_ret tt
  | Some v =>
      if prefix "3" v then io_ret tt
      else if Nat.eqb (List.length extension_names) 0 then io_ret tt
      else io_raise (InstalledExtensions extension_names)
  end.

(** Lines 40-51. *)
Definition remove_mitosheet_3_if_present : IO unit :=
  uninstall_pip_packages "mitosheet3".

Definition USER_OPTION_HINT : string :=
  "Consider using the `--user` option or check the permissions.".
Definition USER_INSTALL_PROMPT : string :=
  "The installer hit a permission error while trying to install Mito. Would you like to do a user install? Note that this will not work inside a virtual enviornment. [y/n] ".

(** Lines 54-72: [raise] re-raises the caught exception [e]. *)
Definition install_step_mitosheet_install_mitosheet : IO unit :=
  env <- io_env ;;
  io_try (install_pip_packages "mitosheet" (str_in "--test-pypi" (sys_argv env)) false)
    (fun e =>
       tb <- get_recent_traceback ;;
       let error_traceback_last_line :=
         py_strip (py_last (py_split_newline (py_strip tb))) in
       if false && String.eqb error_traceback_last_line USER_OPTION_HINT then
         do_user_install <- input USER_INSTALL_PROMPT ;;
         if prefix "y" (py_lower do_user_install) then
           log "install_mitosheet_user" ;;;
           install_pip_packages "mitosheet" (str_in "--test-pypi" (sys_argv env)) true ;;;
           io_ret tt
         else io_raise e
       else io_raise e).

Definition nbextension_args (exe action : string) : list string :=
  [exe; "-m"; "jupyter"; "nbextension"; action; "--py"; "--user"; "mitosheet"].

(** Lines 76-78. *)
Definition install_step_mitosheet_activate_notebook_extension : IO unit :=
  env <- io_env ;;
  run_command (nbextension_args (sys_executable env) "install") ;;;
  run_command (nbextension_args (sys_executable env) "enable").

(** Lines 81-98: the step names and their functions, in order. *)
Definition MITOSHEET_INSTALLER_STEPS : list (string * IO unit) :=
  [ ("Check dependencies", install_step_mitosheet_check_dependencies);
    ("Remove mitosheet3 if present", remove_mitosheet_3_if_present);
    ("Install mitosheet", install_step_mitosheet_install_mitosheet);
    ("Activate extension", install_step_mitosheet_activate_notebook_extension) ].

(** Membership of a character in a string. *)
Definition has_newline (s : string) : bool :=
  existsb (Ascii.eqb "010"%char) (list_ascii_of_string s).

(** * Lemmas on the string primitives *)

Module PyFacts.

Lemma length_app (s t : string) :
  String.length (s ++ t) = (String.length s + String.length t)%nat.
Proof. induction s; simpl; auto. Qed.

Lemma prefix_nil (s : string) : prefix EmptyString s = true.
Proof. destruct s; reflexivity. Qed.

Lemma prefix_length (sub s : string) :
  prefix sub s = true -> (String.length sub <= String.length s)%nat.
Proof.
  revert sub; induction s as [|b s IH]; intros [|a sub] H; simpl in *;
    try discriminate; try lia.
  destruct (ascii_dec a b); [apply IH in H; lia | discriminate].
Qed.

Lemma prefix_app (sub s t : string) :
  prefix sub s = true -> prefix sub (s ++ t) = true.
Proof.
  revert sub; induction s as [|b s IH]; intros [|a sub] H; simpl in *;
    try discriminate; auto using prefix_nil.
  destruct (ascii_dec a b); auto.
Qed.

Lemma prefix_app_long (sub s t : string) :
  (String.length sub <= String.length s)%nat -> prefix sub (s ++ t) = prefix sub s.
Proof.
  revert sub; induction s as [|b s IH]; intros [|a sub] H; simpl in *;
    rewrite ?prefix_nil; auto; try lia.
  destruct (ascii_dec a b); auto. apply IH; lia.
Qed.

Lemma find0_cons (sub : string) (b : ascii) (s : string) :
  find0 sub (String b s) =
  if prefix sub (String b s) then Some O else option_map S (find0 sub s).
Proof. reflexivity. Qed.

Lemma find0_bound (sub s : string) (i : nat) :
  find0 sub s = Some i -> (i + String.length sub <= String.length s)%nat.
Proof.
  revert i; induction s as [|b s IH]; intros i H.
  - destruct sub; simpl in H; inversion H; subst; simpl; lia.
  - rewrite find0_cons in H. destruct (prefix sub (String b s)) eqn:E.
    + inversion H; subst. apply prefix_length in E. simpl in *; lia.
    + destruct (find0 sub s) as [j|] eqn:F; simpl in H; inversion H; subst.
      specialize (IH j eq_refl). simpl; lia.
Qed.

(** A match found inside [u] stays the first one when text is appended. *)
Lemma find0_app (sub u v : string) (i : nat) :
  find0 sub u = Some i -> find0 sub (u ++ v) = Some i.
Proof.
  revert i; induction u as [|b u IH]; intros i H.
  - destruct sub; simpl in H; inversion H; subst.
    destruct v; reflexivity.
  - change (String b u ++ v) with (String b (u ++ v)).
    rewrite find0_cons in H |- *.
    destruct (prefix sub (String b u)) eqn:E.
    + inversion H; subst.
      change (String b (u ++ v)) with (String b u ++ v).
      rewrite (prefix_app _ _ _ E). reflexivity.
    + destruct (find0 sub u) as [j|] eqn:F; simpl in H; inversion H; subst.
      pose proof (find0_bound _ _ _ F) as B.
      change (String b (u ++ v)) with (String b u ++ v).
      rewrite prefix_app_long by (simpl; lia). rewrite E.
      rewrite (IH j eq_refl). reflexivity.
Qed.

Lemma str_drop_app (p r : string) : str_drop (String.length p) (p ++ r) = r.
Proof. induction p; simpl; auto. Qed.

Lemma str_drop_length (n : nat) (s : string) :
  String.length (str_drop n s) = (String.length s - n)%nat.
Proof.
  revert s; induction n; intros [|a s]; simpl; auto; lia.
Qed.

Lemma len_app (s t : string) : len (s ++ t) = len s + len t.
Proof. unfold len. rewrite length_app. lia. Qed.

Lemma len_nonneg (s : string) : 0 <= len s.
Proof. unfold len; lia. Qed.

(** [str.find] from the end of a prefix [p] of the text is a search in the
    rest [r]. *)
Lemma find_shift (p r sub : string) :
  find (p ++ r) sub (len p) =
  match find0 sub r with Some i => len p + Z.of_nat i | None => -1 end.
Proof.
  unfold find. rewrite len_app.
  pose proof (len_nonneg p); pose proof (len_nonneg r).
  replace (len p <? 0) with false by (symmetry; apply Z.ltb_ge; lia).
  replace (len p + len r <? len p) with false by (symmetry; apply Z.ltb_ge; lia).
  replace (Z.to_nat (len p)) with (String.length p) by (unfold len; lia).
  rewrite str_drop_app. reflexivity.
Qed.

Lemma find_from_zero (s sub : string) :
  find s sub 0 = match find0 sub s with Some i => Z.of_nat i | None => -1 end.
Proof.
  apply (find_shift EmptyString s sub).
Qed.

Lemma substring_app_l (x y : string) (m : nat) :
  substring (String.length x) m (x ++ y) = substring 0 m y.
Proof. induction x; simpl; auto. Qed.

Lemma substring_prefix (b y : string) :
  substring 0 (String.length b) (b ++ y) = b.
Proof. induction b; simpl; [destruct y; reflexivity | f_equal; auto]. Qed.

(** [(x + b + y)[len(x):len(x)+len(b)] == b]. *)
Lemma slice_mid (x b y : string) :
  slice (x ++ b ++ y) (len x) (len x + len b) = b.
Proof.
  unfold slice, slice_bound. rewrite !len_app.
  pose proof (len_nonneg x); pose proof (len_nonneg b); pose proof (len_nonneg y).
  replace (len x <? 0) with false by (symmetry; apply Z.ltb_ge; lia).
  replace (len x + len b <? 0) with false by (symmetry; apply Z.ltb_ge; lia).
  rewrite !Z.min_l by lia.
  destruct (Z.ltb_spec (len x) (len x + len b)).
  - replace (len x + len b - len x) with (len b) by lia.
    unfold len. rewrite !Nat2Z.id, substring_app_l, substring_prefix. reflexivity.
  - destruct b; [reflexivity | unfold len in *; simpl in *; lia].
Qed.

End PyFacts.

(** * Lemmas on the extraction loop *)

Module ExtractFacts.
Import PyFacts.

Lemma app_assoc_str (a b c : string) : (a ++ b) ++ c = a ++ b ++ c.
Proof. induction a; simpl; f_equal; auto. Qed.

Lemma len_SCRIPT_OPEN : len SCRIPT_OPEN = 31.
Proof. reflexivity. Qed.

Lemma len_SCRIPT_CLOSE : len SCRIPT_CLOSE = 9.
Proof. reflexivity. Qed.

Lemma find0_skip (sub : string) (b : ascii) (s : string) :
  prefix sub (String b s) = false -> find0 sub (String b s) = option_map S (find0 sub s).
Proof. intros H. rewrite find0_cons, H. reflexivity. Qed.

(** No closing tag starts inside the opening tags. *)
Lemma find0_close_after_open (t : string) :
  find0 SCRIPT_CLOSE (SCRIPT_OPEN ++ t) =
  option_map (Nat.add 31) (find0 SCRIPT_CLOSE t).
Proof.
  unfold SCRIPT_OPEN, QUOTE; cbn [append].
  repeat (rewrite find0_skip by (vm_compute; reflexivity)).
  destruct (find0 SCRIPT_CLOSE t); reflexivity.
Qed.

Lemma find0_div_close_after_open (t : string) :
  find0 DIV_CLOSE (DIV_OPEN ++ t) = option_map (Nat.add 8) (find0 DIV_CLOSE t).
Proof.
  unfold DIV_OPEN; cbn [append].
  repeat (rewrite find0_skip by (vm_compute; reflexivity)).
  destruct (find0 DIV_CLOSE t); reflexivity.
Qed.

Lemma script_block_length (blk : string * string) :
  (40 <= String.length (script_block_text blk))%nat.
Proof.
  destruct blk as [g b]; unfold script_block_text; cbn [fst snd].
  rewrite !length_app.
  replace (String.length SCRIPT_OPEN) with 31%nat by reflexivity.
  replace (String.length SCRIPT_CLOSE) with 9%nat by reflexivity. lia.
Qed.

Lemma script_blocks_length (blks : list (string * string)) :
  (List.length blks <= String.length (script_blocks_text blks))%nat.
Proof.
  induction blks as [|blk blks IH]; simpl; [lia|].
  rewrite length_app. pose proof (script_block_length blk). lia.
Qed.

(** One iteration of the loop over a well-formed block starting at [index]. *)
Lemma script_loop_block (fuel : nat) (pre g b rest acc : string) :
  well_formed_block (g, b) ->
  script_loop (S fuel) (pre ++ script_block_text (g, b) ++ rest) (len pre) acc =
  script_loop fuel (pre ++ script_block_text (g, b) ++ rest)
    (len (pre ++ script_block_text (g, b))) (acc ++ b ++ ";" ++ NEWLINE).
Proof.
  intros [Hg Hb]; simpl fst in Hg; simpl snd in Hb.
  unfold script_block_text; simpl fst; simpl snd.
  set (html := pre ++ (g ++ SCRIPT_OPEN ++ b ++ SCRIPT_CLOSE) ++ rest).
  pose proof (len_nonneg pre); pose proof (len_nonneg g);
    pose proof (len_nonneg b); pose proof (len_nonneg rest).
  assert (Hlen : len html = len pre + len g + 31 + len b + 9 + len rest).
  { unfold html. rewrite !len_app, len_SCRIPT_OPEN, len_SCRIPT_CLOSE. lia. }
  (* the opening tag is found at the end of the gap *)
  assert (Hs : find html SCRIPT_OPEN (len pre) = len pre + len g).
  { unfold html.
    replace ((g ++ SCRIPT_OPEN ++ b ++ SCRIPT_CLOSE) ++ rest)
      with ((g ++ SCRIPT_OPEN) ++ (b ++ SCRIPT_CLOSE ++ rest))
      by (rewrite !app_assoc_str; reflexivity).
    rewrite find_shift, (find0_app _ _ _ _ Hg). unfold len at 3. reflexivity. }
  (* the closing tag is found at the end of the body *)
  assert (He : find html SCRIPT_CLOSE (len pre + len g)
               = len pre + len g + 31 + len b).
  { unfold html.
    replace (pre ++ (g ++ SCRIPT_OPEN ++ b ++ SCRIPT_CLOSE) ++ rest)
      with ((pre ++ g) ++ SCRIPT_OPEN ++ (b ++ SCRIPT_CLOSE ++ rest))
      by (rewrite !app_assoc_str; reflexivity).
    rewrite <- len_app, find_shift, find0_close_after_open.
    replace (b ++ SCRIPT_CLOSE ++ rest) with ((b ++ SCRIPT_CLOSE) ++ rest)
      by (rewrite !app_assoc_str; reflexivity).
    rewrite (find0_app _ _ _ _ Hb). cbn [option_map].
    rewrite len_app. unfold len. lia. }
  (* the body is the slice between the tags *)
  assert (Hsl : slice html (len pre + len g + len SCRIPT_OPEN)
                  (len pre + len g + 31 + len b) = b).
  { unfold html.
    replace (pre ++ (g ++ SCRIPT_OPEN ++ b ++ SCRIPT_CLOSE) ++ rest)
      with ((pre ++ g ++ SCRIPT_OPEN) ++ b ++ (SCRIPT_CLOSE ++ rest))
      by (rewrite !app_assoc_str; reflexivity).
    rewrite len_SCRIPT_OPEN.
    replace (len pre + len g + 31) with (len (pre ++ g ++ SCRIPT_OPEN))
      by (rewrite !len_app, len_SCRIPT_OPEN; lia).
    apply slice_mid. }
  simpl script_loop at 1.
  replace (len pre <? len html) with true by (symmetry; apply Z.ltb_lt; lia).
  rewrite Hs, He.
  replace ((len pre + len g =? -1) || (len pre + len g + 31 + len b =? -1))
    with false by (symmetry; apply orb_false_iff; split; apply Z.eqb_neq; lia).
  rewrite Hsl.
  replace (len pre + len g + 31 + len b + 9)
    with (len (pre ++ g ++ SCRIPT_OPEN ++ b ++ SCRIPT_CLOSE))
    by (rewrite !len_app, len_SCRIPT_OPEN, len_SCRIPT_CLOSE; lia).
  reflexivity.
Qed.
(** The loop over a sequence of well-formed blocks. *)
Lemma script_loop_blocks (blks : list (string * string)) :
  forall (fuel : nat) (pre rest acc : string),
  Forall well_formed_block blks -> (List.length blks <= fuel)%nat ->
  script_loop fuel (pre ++ script_blocks_text blks ++ rest) (len pre) acc =
  script_loop (fuel - List.length blks) (pre ++ script_blocks_text blks ++ rest)
    (len (pre ++ script_blocks_text blks)) (acc ++ script_bodies blks).
Proof.
  induction blks as [|[g b] blks IH]; intros fuel pre rest acc Hwf Hfuel.
  - simpl. rewrite Nat.sub_0_r.
    replace (pre ++ EmptyString) with pre by (induction pre; simpl; f_equal; auto).
    replace (acc ++ EmptyString) with acc by (induction acc; simpl; f_equal; auto).
    reflexivity.
  - inversion Hwf as [|? ? Hb Hwf']; subst.
    destruct fuel as [|fuel]; [simpl in Hfuel; lia|].
    cbn [script_blocks_text script_bodies List.length].
    replace (pre ++ (script_block_text (g, b) ++ script_blocks_text blks) ++ rest)
      with (pre ++ script_block_text (g, b) ++ (script_blocks_text blks ++ rest))
      by (rewrite !app_assoc_str; reflexivity).
    rewrite (script_loop_block _ _ _ _ _ _ Hb).
    replace (pre ++ script_block_text (g, b) ++ script_blocks_text blks ++ rest)
      with ((pre ++ script_block_text (g, b)) ++ script_blocks_text blks ++ rest)
      by (rewrite !app_assoc_str; reflexivity).
    rewrite (IH fuel _ rest _ Hwf') by (simpl in Hfuel; lia).
    rewrite !app_assoc_str. reflexivity.
Qed.

(** With no opening tag in the rest of the text, the loop stops. *)
Lemma script_loop_no_open (fuel : nat) (pre g acc : string) :
  find0 SCRIPT_OPEN g = None ->
  script_loop (S fuel) (pre ++ g) (len pre) acc = acc.
Proof.
  intros Hg. cbn [script_loop].
  destruct (len pre <? len (pre ++ g)); [|reflexivity].
  rewrite find_shift, Hg. reflexivity.
Qed.

(** An opening tag without a closing tag after it stops the loop. *)
Lemma script_loop_unterminated (fuel : nat) (pre g t acc : string) :
  find0 SCRIPT_OPEN (g ++ SCRIPT_OPEN) = Some (String.length g) ->
  find0 SCRIPT_CLOSE t = None ->
  script_loop (S fuel) (pre ++ g ++ SCRIPT_OPEN ++ t) (len pre) acc = acc.
Proof.
  intros Hg Ht. cbn [script_loop].
  destruct (len pre <? len (pre ++ g ++ SCRIPT_OPEN ++ t)); [|reflexivity].
  replace (pre ++ g ++ SCRIPT_OPEN ++ t) with (pre ++ (g ++ SCRIPT_OPEN) ++ t)
    by (rewrite !app_assoc_str; reflexivity).
  rewrite find_shift, (find0_app _ _ _ _ Hg).
  replace (pre ++ (g ++ SCRIPT_OPEN) ++ t) with ((pre ++ g) ++ SCRIPT_OPEN ++ t)
    by (rewrite !app_assoc_str; reflexivity).
  replace (len pre + Z.of_nat (String.length g)) with (len (pre ++ g))
    by (rewrite len_app; reflexivity).
  rewrite find_shift, find0_close_after_open, Ht. cbn [option_map].
  replace (len (pre ++ g) =? -1) with false
    by (symmetry; apply Z.eqb_neq; pose proof (len_nonneg (pre ++ g)); lia).
  reflexivity.
Qed.

Lemma script_of_blocks (blks : list (string * string)) (rest : string) :
  Forall well_formed_block blks ->
  exists fuel, script_of (script_blocks_text blks ++ rest) =
    script_loop (S fuel) (script_blocks_text blks ++ rest)
      (len (script_blocks_text blks)) (script_bodies blks).
Proof.
  intros Hwf. unfold script_of.
  pose proof (script_blocks_length blks) as Hl.
  rewrite length_app.
  exists (String.length (script_blocks_text blks) + String.length rest
          - List.length blks)%nat.
  pose proof (script_loop_blocks blks
    (S (String.length (script_blocks_text blks) + String.length rest))
    EmptyString rest EmptyString Hwf) as E.
  cbn [append] in E. change (len EmptyString) with 0 in E.
  rewrite E by lia. f_equal. lia.
Qed.

(** The container [<div id=...>] followed by [</div>]: line 178 cuts the
    slice at the start of the closing tag. *)
Lemma graph_div_container (p m r : string) :
  find0 DIV_OPEN (p ++ DIV_OPEN) = Some (String.length p) ->
  find0 DIV_CLOSE (m ++ DIV_CLOSE) = Some (String.length m) ->
  graph_div (p ++ DIV_OPEN ++ m ++ DIV_CLOSE ++ r) = DIV_OPEN ++ m.
Proof.
  intros Hp Hm. unfold graph_div.
  assert (Hs : find (p ++ DIV_OPEN ++ m ++ DIV_CLOSE ++ r) DIV_OPEN 0 = len p).
  { rewrite find_from_zero.
    replace (p ++ DIV_OPEN ++ m ++ DIV_CLOSE ++ r)
      with ((p ++ DIV_OPEN) ++ m ++ DIV_CLOSE ++ r)
      by (rewrite !app_assoc_str; reflexivity).
    rewrite (find0_app _ _ _ _ Hp). reflexivity. }
  rewrite Hs.
  rewrite find_shift, find0_div_close_after_open.
  replace (m ++ DIV_CLOSE ++ r) with ((m ++ DIV_CLOSE) ++ r)
    by (rewrite !app_assoc_str; reflexivity).
  rewrite (find0_app _ _ _ _ Hm). cbn [option_map].
  replace (p ++ DIV_OPEN ++ (m ++ DIV_CLOSE) ++ r)
    with (p ++ (DIV_OPEN ++ m) ++ (DIV_CLOSE ++ r))
    by (rewrite !app_assoc_str; reflexivity).
  replace (len p + Z.of_nat (8 + String.length m)) with (len p + len (DIV_OPEN ++ m))
    by (rewrite len_app; unfold len; change (String.length DIV_OPEN) with 8%nat; lia).
  apply slice_mid.
Qed.

(** Without the marker, [find] gives [-1] and the slice is [s[-1:-1]]. *)
Lemma graph_div_no_marker (doc : string) :
  find0 DIV_OPEN doc = None -> graph_div doc = EmptyString.
Proof.
  intros H. unfold graph_div. rewrite find_from_zero, H.
  assert (Hc : find doc DIV_CLOSE (-1) = -1).
  { unfold find.
    destruct (Z.ltb_spec (-1) 0); [|lia].
    destruct (Z.ltb_spec (len doc) (Z.max 0 (-1 + len doc))); [reflexivity|].
    destruct (find0 DIV_CLOSE (str_drop (Z.to_nat (Z.max 0 (-1 + len doc))) doc))
      as [i|] eqn:F; [|reflexivity].
    apply find0_bound in F. rewrite str_drop_length in F.
    change (String.length DIV_CLOSE) with 6%nat in F. unfold len in *. lia. }
  rewrite Hc. unfold slice.
  rewrite Z.ltb_irrefl. reflexivity.
Qed.

End ExtractFacts.

(** * Lemmas on the serializer *)

Module ParamFacts.
Import PyFacts ExtractFacts.

Lemma add_entries_later (chunk : string -> param_value -> string)
    (nl indent : string) (items : list (string * param_value)) :
  forall (n : nat) (code : string),
  add_entries chunk nl indent items (S n) code =
  code ++ concat_strs (map (fun kv => ", " ++ nl ++ indent ++ chunk (fst kv) (snd kv)) items).
Proof.
  induction items as [|[k v] items IH]; intros n code; simpl.
  - induction code; simpl; f_equal; auto.
  - rewrite IH. rewrite !app_assoc_str. reflexivity.
Qed.

Lemma add_entries_first (chunk : string -> param_value -> string)
    (nl indent : string) (items : list (string * param_value)) (code : string) :
  add_entries chunk nl indent items 0 code =
  code ++ match items with
          | [] => EmptyString
          | kv :: kvs =>
              indent ++ chunk (fst kv) (snd kv) ++
              concat_strs (map (fun kv' => ", " ++ nl ++ indent ++ chunk (fst kv') (snd kv')) kvs)
          end.
Proof.
  destruct items as [|[k v] kvs]; simpl.
  - induction code; simpl; f_equal; auto.
  - rewrite add_entries_later. rewrite !app_assoc_str. reflexivity.
Qed.

Lemma param_dict_to_code_layout (conv : scalar -> string)
    (param_dict : list (string * param_value)) (level : nat) (as_single_line : bool) :
  param_dict_to_code conv param_dict level as_single_line =
  param_dict_layout conv param_dict level as_single_line.
Proof.
  unfold param_dict_to_code, param_dict_layout. cbn [param_value_to_code].
  rewrite !add_entries_first.
  assert (Hchunk : forall kv : string * param_value,
    (let (key, value) := kv in
     match value with
     | PScalar v => key ++ "=" ++ conv v
     | PDict _ => key ++ " = " ++ param_value_to_code conv value (S level) false
     end) = entry_code conv level kv).
  { intros [k [v|d]]; reflexivity. }
  destruct param_dict as [|[k v] kvs]; cbn [fst snd].
  - destruct (Nat.eqb level 0); rewrite !app_assoc_str; reflexivity.
  - rewrite <- (Hchunk (k, v)).
    rewrite (map_ext _ (fun kv' => ", " ++ (if as_single_line then EmptyString else NEWLINE)
               ++ str_repeat (if as_single_line then EmptyString else TAB) (S level)
               ++ entry_code conv level kv'))
      by (intros [k' [v'|d']]; reflexivity).
    destruct (Nat.eqb level 0); rewrite !app_assoc_str; reflexivity.
Qed.

End ParamFacts.

(** * Lemmas on the tab names and the titles *)

Module NameFacts.

Lemma str_nat_inj (a b : nat) : str_nat a = str_nat b -> a = b.
Proof.
  unfold str_nat. intros H.
  apply (f_equal NilEmpty.uint_of_string) in H. rewrite !NilEmpty.usu in H.
  injection H as H.
  rewrite <- (DecimalNat.Unsigned.of_to a), <- (DecimalNat.Unsigned.of_to b), H.
  reflexivity.
Qed.

Lemma append_cancel_l (p x y : string) : p ++ x = p ++ y -> x = y.
Proof. induction p; simpl; intros H; [exact H | injection H; auto]. Qed.

Lemma graph_name_inj (a b : nat) : graph_name a = graph_name b -> a = b.
Proof. unfold graph_name. intros H. apply str_nat_inj, (append_cancel_l _ _ _ H). Qed.

Lemma str_in_spec (x : string) (l : list string) : str_in x l = true <-> In x l.
Proof.
  unfold str_in. rewrite existsb_exists. split.
  - intros (y & Hy & E). apply String.eqb_eq in E. subst. exact Hy.
  - intros Hx. exists x. split; [exact Hx | apply String.eqb_refl].
Qed.

(** The probing loop returns the first free name from [n] on, provided one
    is reached within [fuel] further probes. *)
Lemma probe_graph_name_least (fuel : nat) :
  forall (names : list string) (n : nat),
  (exists m, (n <= m <= n + fuel)%nat /\ ~ In (graph_name m) names) ->
  exists N, (n <= N)%nat /\ probe_graph_name fuel names n = graph_name N /\
    ~ In (graph_name N) names /\
    (forall k, (n <= k < N)%nat -> In (graph_name k) names).
Proof.
  induction fuel as [|fuel IH]; intros names n (m & Hm & Hfree).
  - exists n. replace m with n in Hfree by lia.
    split; [lia|]. split; [reflexivity|]. split; [exact Hfree|]. intros; lia.
  - cbn [probe_graph_name].
    destruct (str_in (graph_name n) names) eqn:E.
    + apply str_in_spec in E.
      assert (Hmn : m <> n) by (intros ->; contradiction).
      destruct (IH names (S n)) as (N & HN & Heq & HNfree & Hbefore).
      { exists m. split; [lia | exact Hfree]. }
      exists N. split; [lia|]. split; [exact Heq|]. split; [exact HNfree|].
      intros k Hk. destruct (Nat.eq_dec k n) as [->|Hkn]; [exact E|].
      apply Hbefore; lia.
    + exists n. split; [lia|]. split; [reflexivity|]. split.
      * intros Hin. apply str_in_spec in Hin. congruence.
      * intros; lia.
Qed.

(** Pigeonhole: among [graph0 .. graph<len names>] one name is free. *)
Lemma free_graph_name_exists (names : list string) :
  exists m, (m <= List.length names)%nat /\ ~ In (graph_name m) names.
Proof.
  destruct (existsb (fun m => negb (str_in (graph_name m) names))
              (seq 0 (S (List.length names)))) eqn:E.
  - apply existsb_exists in E as (m & Hm & Hf).
    apply in_seq in Hm. exists m. split; [lia|].
    intros Hin. apply str_in_spec in Hin. rewrite Hin in Hf. discriminate.
  - exfalso.
    assert (Hincl : incl (map graph_name (seq 0 (S (List.length names)))) names).
    { intros x Hx. apply in_map_iff in Hx as (m & <- & Hm).
      destruct (str_in (graph_name m) names) eqn:Hs.
      - apply str_in_spec, Hs.
      - assert (existsb (fun m => negb (str_in (graph_name m) names))
                  (seq 0 (S (List.length names))) = true) as T.
        { apply existsb_exists. exists m. rewrite Hs. split; [exact Hm | reflexivity]. }
        congruence. }
    apply NoDup_incl_length in Hincl.
    + rewrite length_map, length_seq in Hincl. lia.
    + apply Injective_map_NoDup; [exact graph_name_inj | apply seq_NoDup].
Qed.

End NameFacts.

Module TitleFacts.

Lemma dict_lookup_none {V : Type} (d : list (string * V)) (k : string) :
  dict_lookup d k = None <-> ~ In k (map fst d).
Proof.
  induction d as [|[k' v] d IH]; simpl.
  - split; auto.
  - destruct (String.eqb_spec k k') as [->|Hne].
    + split; [discriminate | intros H; exfalso; apply H; left; reflexivity].
    + rewrite IH. split.
      * intros H [E|E]; [congruence | exact (H E)].
      * intros H E. apply H. right. exact E.
Qed.

End TitleFacts.

(** * The claims *)

Module Claims.
Import PyFacts ExtractFacts ParamFacts NameFacts TitleFacts.

(** A rendered document as plotly writes it, used at the concrete inputs. *)
Definition sample_document : string :=
  "<div>" ++ DIV_OPEN ++ "'g' class='plotly-graph-div'>" ++ DIV_CLOSE ++
  SCRIPT_OPEN ++ "a=1" ++ SCRIPT_CLOSE ++ SCRIPT_OPEN ++ "b=2" ++ SCRIPT_CLOSE ++
  "</div>".

Definition render_as (doc : string) (_ : unit) (_ _ : Z) (_ : bool) : string := doc.

(** ** C1 *)

(** C1 (code_bug): for a document [p + '<div id=' + m + '</div>' + r] whose
    first [<div id=] starts after [p] and whose first [</div>] after it
    follows [m], the markup returned is ['<div id=' + m]: the slice ends
    where the closing tag starts, so the closing tag is not included. *)
Theorem graph_div_ends_before_close_tag {figure : Type}
    (write_html : figure -> Z -> Z -> bool -> string)
    (fig : figure) (height width : Z) (include_plotlyjs : bool) (p m r : string) :
  find0 DIV_OPEN (p ++ DIV_OPEN) = Some (String.length p) ->
  find0 DIV_CLOSE (m ++ DIV_CLOSE) = Some (String.length m) ->
  write_html fig height width include_plotlyjs = p ++ DIV_OPEN ++ m ++ DIV_CLOSE ++ r ->
  html (get_html_and_script_from_figure write_html fig height width include_plotlyjs)
  = DIV_OPEN ++ m.
Proof.
  intros Hp Hm Hdoc. unfold get_html_and_script_from_figure. cbn [html].
  rewrite Hdoc. apply graph_div_container; assumption.
Qed.

Lemma graph_div_ends_before_close_tag_witness :
  find0 DIV_OPEN ("<div>" ++ DIV_OPEN) = Some (String.length "<div>") /\
  find0 DIV_CLOSE ("'g' class='plotly-graph-div'>" ++ DIV_CLOSE)
    = Some (String.length "'g' class='plotly-graph-div'>") /\
  html (get_html_and_script_from_figure (render_as sample_document) tt 425 970 false)
    = "<div id='g' class='plotly-graph-div'>".
Proof.
  split; [vm_compute; reflexivity|]. split; [vm_compute; reflexivity|].
  apply (graph_div_ends_before_close_tag (render_as sample_document) tt 425 970 false
           "<div>" "'g' class='plotly-graph-div'>"
           (SCRIPT_OPEN ++ "a=1" ++ SCRIPT_CLOSE ++ SCRIPT_OPEN ++ "b=2" ++ SCRIPT_CLOSE
            ++ "</div>")); vm_compute; reflexivity.
Defined.

(** ** C2 *)

(** C2 (corrected): with no [<div id=] in the document, the function does
    not fail: [find] gives [-1], the slice is [original_html[-1:-1]], and
    the markup is the empty string. *)
Theorem graph_div_empty_without_marker {figure : Type}
    (write_html : figure -> Z -> Z -> bool -> string)
    (fig : figure) (height width : Z) (include_plotlyjs : bool) :
  find0 DIV_OPEN (write_html fig height width include_plotlyjs) = None ->
  html (get_html_and_script_from_figure write_html fig height width include_plotlyjs)
  = EmptyString.
Proof.
  intros H. unfold get_html_and_script_from_figure. cbn [html].
  apply graph_div_no_marker, H.
Qed.

Lemma graph_div_empty_without_marker_witness :
  find0 DIV_OPEN (SCRIPT_OPEN ++ "a=1" ++ SCRIPT_CLOSE) = None /\
  html (get_html_and_script_from_figure
          (render_as (SCRIPT_OPEN ++ "a=1" ++ SCRIPT_CLOSE)) tt 425 970 true)
    = EmptyString.
Proof.
  split; [vm_compute; reflexivity|].
  apply graph_div_empty_without_marker. vm_compute. reflexivity.
Defined.

(** C2, counterexample: a document without the marker is answered normally,
    with the empty markup and the script still extracted. *)
Lemma graph_div_no_marker_returns :
  get_html_and_script_from_figure
    (render_as (SCRIPT_OPEN ++ "a=1" ++ SCRIPT_CLOSE)) tt 425 970 true
  = {| html := EmptyString; script := "a=1;" ++ NEWLINE |}.
Proof. vm_compute. reflexivity. Qed.

(** ** C3 *)

(** C3 (code_bug): a nested dict under [as_single_line=True] is still laid
    out on several lines, because the recursive call at line 72 passes only
    [level=level + 1] and [as_single_line] falls back to [False]: for
    [{"a": {"b": v}}] the single-line output is
    ['a = dict(\n        b=<v>\n    )'], which holds newlines. *)
Theorem nested_dict_breaks_single_line (conv : scalar -> string) (v : scalar) :
  param_dict_to_code conv [("a", PDict [("b", PScalar v)])] 0 true =
  "a = dict(" ++ NEWLINE ++ "        b=" ++ conv v ++ NEWLINE ++ "    )".
Proof.
  rewrite param_dict_to_code_layout. unfold param_dict_layout. cbn.
  rewrite !app_assoc_str. reflexivity.
Qed.

(** ** C4 *)

(** C4: for a document made of well-formed script blocks (each a gap with
    no opening tag, the opening tag, a body with no closing tag, the
    closing tag) followed by text with no opening tag, the script returned
    is the bodies in document order, each followed by [;] and a newline. *)
Theorem script_is_bodies_in_order {figure : Type}
    (write_html : figure -> Z -> Z -> bool -> string)
    (fig : figure) (height width : Z) (include_plotlyjs : bool)
    (blks : list (string * string)) (rest : string) :
  Forall well_formed_block blks ->
  find0 SCRIPT_OPEN rest = None ->
  write_html fig height width include_plotlyjs = script_blocks_text blks ++ rest ->
  script (get_html_and_script_from_figure write_html fig height width include_plotlyjs)
  = script_bodies blks.
Proof.
  intros Hwf Hrest Hdoc. unfold get_html_and_script_from_figure. cbn [script].
  rewrite Hdoc. destruct (script_of_blocks blks rest Hwf) as [fuel ->].
  apply script_loop_no_open, Hrest.
Qed.

(** The blocks of [sample_document]: a container div, then [a=1] and [b=2]. *)
Definition sample_blocks : list (string * string) :=
  [("<div>" ++ DIV_OPEN ++ "'g' class='plotly-graph-div'>" ++ DIV_CLOSE, "a=1");
   (EmptyString, "b=2")].

Lemma script_is_bodies_in_order_witness :
  Forall well_formed_block sample_blocks /\
  find0 SCRIPT_OPEN "</div>" = None /\
  script (get_html_and_script_from_figure (render_as sample_document) tt 425 970 false)
    = "a=1;" ++ NEWLINE ++ "b=2;" ++ NEWLINE.
Proof.
  split; [repeat constructor; vm_compute; reflexivity|].
  split; [vm_compute; reflexivity|].
  apply (script_is_bodies_in_order (render_as sample_document) tt 425 970 false
           sample_blocks "</div>").
  - repeat constructor; vm_compute; reflexivity.
  - vm_compute; reflexivity.
  - vm_compute; reflexivity.
Defined.

(** ** C5 *)

(** C5: the title is the comma-joined headers ([x] then [y]), then
    [" (first 1000 rows)"] exactly when [filtered], then a space and the
    chart's label; with the headers [Age] and [Income] and the type [bar]
    it is ["Age, Income bar chart"], or with the marker when filtered. *)
Theorem get_graph_title_components :
  (forall (ColumnHeader : Type) (str : ColumnHeader -> string)
          (x_axis_column_headers y_axis_column_headers : list ColumnHeader)
          (filtered : bool) (graph_type : string),
     get_graph_title str x_axis_column_headers y_axis_column_headers filtered graph_type =
     option_map
       (fun label =>
          join ", " (map str (x_axis_column_headers ++ y_axis_column_headers)) ++
          (if filtered then " (first 1000 rows)" else EmptyString) ++ " " ++ label)
       (dict_lookup GRAPH_TITLE_LABELS graph_type)) /\
  get_graph_title (fun s : string => s) ["Age"] ["Income"] false "bar"
    = Some "Age, Income bar chart" /\
  get_graph_title (fun s : string => s) ["Age"] ["Income"] true "bar"
    = Some "Age, Income (first 1000 rows) bar chart".
Proof.
  split; [|split; reflexivity].
  intros ColumnHeader str x y filtered graph_type. unfold get_graph_title.
  destruct (dict_lookup GRAPH_TITLE_LABELS graph_type); [|reflexivity].
  destruct filtered; reflexivity.
Qed.

(** ** C6 *)

(** C6: the name returned is [graph<N>] for the least [N] such that
    [graph<N>] is not among the existing tab names; so it is never one of
    them, and it depends on nothing but those names. *)
Theorem get_new_graph_tab_name_first_free (graph_data_dict : list (string * graph_data)) :
  let all_graph_names := map (fun kv => graphTabName (snd kv)) graph_data_dict in
  exists N : nat,
    get_new_graph_tab_name graph_data_dict = "graph" ++ str_nat N /\
    ~ In ("graph" ++ str_nat N) all_graph_names /\
    (forall k : nat, (k < N)%nat -> In ("graph" ++ str_nat k) all_graph_names) /\
    (forall other : list (string * graph_data),
       map (fun kv => graphTabName (snd kv)) other = all_graph_names ->
       get_new_graph_tab_name other = "graph" ++ str_nat N).
Proof.
  intros names.
  destruct (free_graph_name_exists names) as (m & Hm & Hfree).
  destruct (probe_graph_name_least (S (List.length names)) names 0)
    as (N & _ & Heq & HNfree & Hbefore).
  { exists m. split; [lia | exact Hfree]. }
  exists N. split; [exact Heq|]. split; [exact HNfree|]. split.
  - intros k Hk. apply Hbefore. lia.
  - intros other Hother. unfold get_new_graph_tab_name. rewrite Hother. exact Heq.
Qed.

(** ** C7 *)

(** C7: [GRAPH_TITLE_LABELS[graph_type]] raises (the title is [None])
    exactly when [graph_type] is not a key of the label table. *)
Theorem get_graph_title_fails_iff_unknown {ColumnHeader : Type}
    (str : ColumnHeader -> string)
    (x_axis_column_headers y_axis_column_headers : list ColumnHeader)
    (filtered : bool) (graph_type : string) :
  get_graph_title str x_axis_column_headers y_axis_column_headers filtered graph_type = None
  <-> ~ In graph_type (map fst GRAPH_TITLE_LABELS).
Proof.
  rewrite <- dict_lookup_none. unfold get_graph_title.
  destruct (dict_lookup GRAPH_TITLE_LABELS graph_type); split; congruence.
Qed.

(** ** C8 *)

(** C8 (corrected): the output is the opening, then the entries in order
    separated by [", "] and the newline constant, each after its
    indentation, then the closing; an entry is [key=<literal>] for a scalar
    and [key = dict(...)] for a nested dict ([entry_code]), in both
    single-line and multi-line mode. *)
Theorem param_dict_to_code_entries (conv : scalar -> string)
    (param_dict : list (string * param_value)) (level : nat) (as_single_line : bool) :
  param_dict_to_code conv param_dict level as_single_line =
  param_dict_layout conv param_dict level as_single_line.
Proof. apply param_dict_to_code_layout. Qed.

(** C8, counterexample: in multi-line mode the scalar entry [a: True] is
    rendered [a=True], with no spaces around the equals sign. *)
Lemma multi_line_scalar_entry_without_spaces :
  param_dict_to_code transpiled_literal [("a", PScalar (SBool true))] 0 false
    = NEWLINE ++ "    a=True" ++ NEWLINE /\
  param_dict_to_code transpiled_literal [("a", PScalar (SBool true))] 0 false
    <> NEWLINE ++ "    a = True" ++ NEWLINE.
Proof.
  split; [reflexivity|]. vm_compute. discriminate.
Qed.

(** ** C9 *)

(** C9: with both header lists empty the joined headers are the empty
    string, still the first component, so the title starts with a space. *)
Theorem get_graph_title_empty_headers {ColumnHeader : Type}
    (str : ColumnHeader -> string) (filtered : bool) (graph_type : string) :
  get_graph_title str [] [] filtered graph_type =
  option_map
    (fun label => " " ++ (if filtered then "(first 1000 rows) " else EmptyString) ++ label)
    (dict_lookup GRAPH_TITLE_LABELS graph_type).
Proof.
  unfold get_graph_title.
  destruct (dict_lookup GRAPH_TITLE_LABELS graph_type); [|reflexivity].
  destruct filtered; reflexivity.
Qed.

(** ** C10 *)

(** C10: an opening tag with no closing tag after it ends the scan: the
    script is the bodies of the well-formed blocks before it, and nothing
    of the unterminated block. *)
Theorem script_stops_at_unterminated_block {figure : Type}
    (write_html : figure -> Z -> Z -> bool -> string)
    (fig : figure) (height width : Z) (include_plotlyjs : bool)
    (blks : list (string * string)) (g t : string) :
  Forall well_formed_block blks ->
  find0 SCRIPT_OPEN (g ++ SCRIPT_OPEN) = Some (String.length g) ->
  find0 SCRIPT_CLOSE t = None ->
  write_html fig height width include_plotlyjs
    = script_blocks_text blks ++ g ++ SCRIPT_OPEN ++ t ->
  script (get_html_and_script_from_figure write_html fig height width include_plotlyjs)
  = script_bodies blks.
Proof.
  intros Hwf Hg Ht Hdoc. unfold get_html_and_script_from_figure. cbn [script].
  rewrite Hdoc. destruct (script_of_blocks blks (g ++ SCRIPT_OPEN ++ t) Hwf) as [fuel ->].
  apply script_loop_unterminated; assumption.
Qed.

Lemma script_stops_at_unterminated_block_witness :
  Forall well_formed_block [(EmptyString, "a=1")] /\
  find0 SCRIPT_OPEN ("</div>" ++ SCRIPT_OPEN) = Some (String.length "</div>") /\
  find0 SCRIPT_CLOSE "b=2" = None /\
  script (get_html_and_script_from_figure
            (render_as (SCRIPT_OPEN ++ "a=1" ++ SCRIPT_CLOSE ++ "</div>" ++ SCRIPT_OPEN ++ "b=2"))
            tt 425 970 false)
    = "a=1;" ++ NEWLINE.
Proof.
  split; [repeat constructor; vm_compute; reflexivity|].
  split; [vm_compute; reflexivity|]. split; [vm_compute; reflexivity|].
  apply (script_stops_at_unterminated_block
           (render_as (SCRIPT_OPEN ++ "a=1" ++ SCRIPT_CLOSE ++ "</div>" ++ SCRIPT_OPEN ++ "b=2"))
           tt 425 970 false [(EmptyString, "a=1")] "</div>" "b=2").
  - repeat constructor; vm_compute; reflexivity.
  - vm_compute; reflexivity.
  - vm_compute; reflexivity.
  - vm_compute; reflexivity.
Defined.

End Claims.

(** * Further properties of the code *)

(** ** The installer steps *)

Module InstallerFacts.

Lemma io_call_run (c : installer_call) (o : installer_env -> option string)
    (env : installer_env) (t : list installer_call) :
  io_call c o env t =
  (match o env with None => inr tt | Some m => inl (CollaboratorError m) end,
   (t ++ [c])%list).
Proof. unfold io_call. destruct (o env); reflexivity. Qed.

Lemma install_mitosheet_run (env : installer_env) (t : list installer_call) :
  let test_pypi := str_in "--test-pypi" (sys_argv env) in
  install_step_mitosheet_install_mitosheet env t =
  match install_pip_packages_outcome env "mitosheet" test_pypi false with
  | None => (inr tt, (t ++ [CallInstallPipPackages "mitosheet" test_pypi false])%list)
  | Some msg =>
      (inl (CollaboratorError msg),
       (t ++ [CallInstallPipPackages "mitosheet" test_pypi false;
              CallGetRecentTraceback])%list)
  end.
Proof.
  intros tp. unfold install_step_mitosheet_install_mitosheet, io_bind, io_env, io_try,
    install_pip_packages. rewrite io_call_run. fold tp.
  destruct (install_pip_packages_outcome env "mitosheet" tp false); [|reflexivity].
  unfold get_recent_traceback, io_raise. cbn [andb].
  rewrite <- app_assoc. reflexivity.
Qed.

Lemma activate_run (env : installer_env) (t : list installer_call) :
  let install := nbextension_args (sys_executable env) "install" in
  let enable := nbextension_args (sys_executable env) "enable" in
  install_step_mitosheet_activate_notebook_extension env t =
  match run_command_outcome env install with
  | Some m => (inl (CollaboratorError m), (t ++ [CallRunCommand install])%list)
  | None =>
      (match run_command_outcome env enable with
       | None => inr tt
       | Some m => inl (CollaboratorError m)
       end, (t ++ [CallRunCommand install; CallRunCommand enable])%list)
  end.
Proof.
  intros ins ena.
  unfold install_step_mitosheet_activate_notebook_extension, io_bind, io_env, run_command.
  rewrite io_call_run. fold ins.
  destruct (run_command_outcome env ins); [reflexivity|].
  rewrite io_call_run. rewrite <- app_assoc. reflexivity.
Qed.

End InstallerFacts.

Module InstallerExtras.
Import InstallerFacts.

(** Lines 11-38: the dependency check makes one call, to
    [get_jupyterlab_metadata], and raises exactly when JupyterLab is
    installed, its version does not start with ['3'] and there are
    installed extensions; the exception carries those extension names. *)
Theorem check_dependencies_raises_iff (env : installer_env)
    (t : list installer_call) (e : installer_exn) :
  snd (install_step_mitosheet_check_dependencies env t)
    = (t ++ [CallGetJupyterlabMetadata])%list /\
  (fst (install_step_mitosheet_check_dependencies env t) = inl e <->
   exists v, fst (jupyterlab_metadata env) = Some v /\ prefix "3" v = false /\
     snd (jupyterlab_metadata env) <> [] /\
     e = InstalledExtensions (snd (jupyterlab_metadata env))).
Proof.
  unfold install_step_mitosheet_check_dependencies, io_bind, get_jupyterlab_metadata.
  destruct (jupyterlab_metadata env) as [[v|] names].
  - destruct (prefix "3" v) eqn:P.
    + cbn. split; [reflexivity|]. split; [discriminate|].
      intros (v' & E & P' & _). injection E as <-. congruence.
    + destruct names as [|n ns]; cbn.
      * split; [reflexivity|]. split; [discriminate|].
        intros (v' & _ & _ & H & _). congruence.
      * split; [reflexivity|]. split.
        -- intros H. injection H as <-. exists v. repeat split; congruence.
        -- intros (v' & _ & _ & _ & ->). reflexivity.
  - cbn. split; [reflexivity|]. split; [discriminate|].
    intros (v' & E & _). discriminate.
Qed.

(** Lines 54-72: the install step installs ['mitosheet'] once, with
    [test_pypi] set by ['--test-pypi' in sys.argv] and no user install; on
    failure it reads the recent traceback and re-raises the same exception,
    whatever the traceback says (the user-install branch is guarded by
    [False]). *)
Theorem install_mitosheet_reraises (env : installer_env) (t : list installer_call) :
  let test_pypi := str_in "--test-pypi" (sys_argv env) in
  install_step_mitosheet_install_mitosheet env t =
  match install_pip_packages_outcome env "mitosheet" test_pypi false with
  | None => (inr tt, (t ++ [CallInstallPipPackages "mitosheet" test_pypi false])%list)
  | Some msg =>
      (inl (CollaboratorError msg),
       (t ++ [CallInstallPipPackages "mitosheet" test_pypi false;
              CallGetRecentTraceback])%list)
  end.
Proof. apply install_mitosheet_run. Qed.

(** Lines 54-72: the install step never prompts the user, never logs a user
    install and never installs with [user_install=True]. *)
Theorem install_mitosheet_never_user_install (env : installer_env) :
  let calls := snd (install_step_mitosheet_install_mitosheet env []) in
  (forall prompt, ~ In (CallInput prompt) calls) /\
  (forall event, ~ In (CallLog event) calls) /\
  (forall package test_pypi, ~ In (CallInstallPipPackages package test_pypi true) calls).
Proof.
  cbv zeta. rewrite install_mitosheet_run.
  destruct (install_pip_packages_outcome env "mitosheet"
              (str_in "--test-pypi" (sys_argv env)) false); cbn [snd app];
    repeat split; intros; cbn [In]; intuition discriminate.
Qed.

(** Lines 76-78: the activation step runs the [nbextension install]
    command, then the [nbextension enable] command, both with [--py --user
    mitosheet] through [sys.executable -m jupyter]; if the first raises, the
    second is never run. *)
Theorem activate_stops_at_failed_install (env : installer_env) (t : list installer_call) :
  let install := nbextension_args (sys_executable env) "install" in
  let enable := nbextension_args (sys_executable env) "enable" in
  install_step_mitosheet_activate_notebook_extension env t =
  match run_command_outcome env install with
  | Some m => (inl (CollaboratorError m), (t ++ [CallRunCommand install])%list)
  | None =>
      (match run_command_outcome env enable with
       | None => inr tt
       | Some m => inl (CollaboratorError m)
       end, (t ++ [CallRunCommand install; CallRunCommand enable])%list)
  end.
Proof. apply activate_run. Qed.

End InstallerExtras.

(** ** get_column_header_from_optional_column_id_graph_param *)

Module ColumnHeaderFacts.

Lemma dict_lookup_in {V : Type} (d : list (string * V)) (k : string) (v : V) :
  dict_lookup d k = Some v -> In k (map fst d).
Proof.
  induction d as [|[k' v'] d IH]; cbn; [discriminate|].
  destruct (String.eqb_spec k k') as [->|_]; auto.
Qed.

Lemma dict_lookup_not_in {V : Type} (d : list (string * V)) (k : string) :
  ~ In k (map fst d) -> dict_lookup d k = None.
Proof.
  induction d as [|[k' v'] d IH]; cbn; [reflexivity|].
  destruct (String.eqb_spec k k') as [->|_]; intros H.
  - exfalso. apply H. left. reflexivity.
  - apply IH. intros H'. apply H. right. exact H'.
Qed.

Lemma py_list_index_none {A : Type} (l : list A) (i : Z) :
  py_list_index l i = None <->
  i < - Z.of_nat (List.length l) \/ Z.of_nat (List.length l) <= i.
Proof.
  unfold py_list_index.
  destruct (Z.leb_spec 0 i) as [L0|L0];
    destruct (Z.ltb_spec i (Z.of_nat (List.length l))) as [L1|L1]; cbn [andb].
  - split; [|lia]. intros E. apply nth_error_None in E. lia.
  - destruct (Z.ltb_spec i 0) as [L2|L2]; [lia|]. rewrite andb_false_r.
    split; auto; lia.
  - destruct (Z.leb_spec (- Z.of_nat (List.length l)) i) as [L2|L2];
      destruct (Z.ltb_spec i 0) as [L3|L3]; cbn [andb]; try lia.
    + split; [|lia]. intros E. apply nth_error_None in E. lia.
    + split; auto.
  - lia.
Qed.

End ColumnHeaderFacts.

Module ColumnHeaderExtras.
Import TitleFacts ColumnHeaderFacts.

(** Line 203: without a ['sheet_index'] key the function raises [KeyError],
    whatever the other parameters. *)
Theorem column_header_missing_sheet_index {ColumnHeader : Type}
    (get_column_header_by_id : Z -> string -> ColumnHeader)
    (sheets : list (list (string * ColumnHeader))) (params : list (string * graph_param))
    (param_name : string) :
  ~ In "sheet_index" (map fst params) ->
  get_column_header_from_optional_column_id_graph_param ColumnHeader get_column_header_by_id
    sheets params param_name = PyKeyError.
Proof.
  intros Hs. unfold get_column_header_from_optional_column_id_graph_param.
  rewrite (dict_lookup_not_in _ _ Hs). reflexivity.
Qed.

Lemma column_header_missing_sheet_index_witness :
  ~ In "sheet_index" (map fst [("x", GStr "c0")]) /\
  get_column_header_from_optional_column_id_graph_param string (fun _ id => id)
    [[("c0", "A")]] [("x", GStr "c0")] "x" = PyKeyError.
Proof.
  split.
  - cbn. intros [E|[]]. discriminate.
  - apply (column_header_missing_sheet_index (fun _ id => id) [[("c0", "A")]]
             [("x", GStr "c0")] "x").
    cbn. intros [E|[]]. discriminate.
Defined.

(** Line 204: when [param_name] is not a parameter the result is [None], and
    the sheet list is not indexed: a [sheet_index] that is out of range or
    not an integer raises nothing. *)
Theorem column_header_missing_param {ColumnHeader : Type}
    (get_column_header_by_id : Z -> string -> ColumnHeader)
    (sheets : list (list (string * ColumnHeader))) (params : list (string * graph_param))
    (param_name : string) :
  In "sheet_index" (map fst params) ->
  ~ In param_name (map fst params) ->
  get_column_header_from_optional_column_id_graph_param ColumnHeader get_column_header_by_id
    sheets params param_name = PyOk None.
Proof.
  intros Hs Hp. unfold get_column_header_from_optional_column_id_graph_param.
  destruct (dict_lookup params "sheet_index") eqn:E.
  - rewrite (dict_lookup_not_in _ _ Hp). reflexivity.
  - apply dict_lookup_none in E. contradiction.
Qed.

Lemma column_header_missing_param_witness :
  In "sheet_index" (map fst [("sheet_index", GStr "bad")]) /\
  ~ In "x_axis" (map fst [("sheet_index", GStr "bad")]) /\
  get_column_header_from_optional_column_id_graph_param string (fun _ id => id)
    [] [("sheet_index", GStr "bad")] "x_axis" = PyOk None.
Proof.
  split; [|split].
  - cbn. left. reflexivity.
  - cbn. intros [E|[]]. discriminate.
  - apply (column_header_missing_param (fun _ id => id) [] [("sheet_index", GStr "bad")]
             "x_axis").
    + cbn. left. reflexivity.
    + cbn. intros [E|[]]. discriminate.
Defined.

(** Lines 204-205: a header is returned only as
    [get_column_header_by_id(sheet_index, column_id)] for an integer
    [sheet_index] naming a sheet and a string [column_id] that is a key of
    that sheet's map. *)
Theorem column_header_found_only_by_id {ColumnHeader : Type}
    (get_column_header_by_id : Z -> string -> ColumnHeader)
    (sheets : list (list (string * ColumnHeader))) (params : list (string * graph_param))
    (param_name : string) (h : ColumnHeader) :
  get_column_header_from_optional_column_id_graph_param ColumnHeader get_column_header_by_id
    sheets params param_name = PyOk (Some h) ->
  exists i id headers,
    dict_lookup params "sheet_index" = Some (GInt i) /\
    dict_lookup params param_name = Some (GStr id) /\
    py_list_index sheets i = Some headers /\
    In id (map fst headers) /\
    h = get_column_header_by_id i id.
Proof.
  unfold get_column_header_from_optional_column_id_graph_param.
  destruct (dict_lookup params "sheet_index") as [[i| |]|]; try discriminate;
  destruct (dict_lookup params param_name) as [[c|id|]|]; try discriminate;
  destruct (py_list_index sheets i) as [headers|] eqn:Hi; try discriminate.
  destruct (dict_lookup headers id) eqn:Hk; [|discriminate].
  intros E. injection E as <-.
  exists i, id, headers. repeat split; auto.
  eapply dict_lookup_in; exact Hk.
Qed.

Lemma column_header_found_only_by_id_witness :
  let by_id := fun (i : Z) (id : string) => id ++ (if i <? 0 then "@last" else "@first") in
  let sheets := [[("c0", "A")]; [("c1", "B")]] in
  let params := [("sheet_index", GInt (-1)); ("y", GStr "c1")] in
  get_column_header_from_optional_column_id_graph_param string by_id sheets params "y"
    = PyOk (Some "c1@last") /\
  exists i id headers,
    dict_lookup params "sheet_index" = Some (GInt i) /\
    dict_lookup params "y" = Some (GStr id) /\
    py_list_index sheets i = Some headers /\
    In id (map fst headers) /\
    "c1@last" = by_id i id.
Proof.
  intros by_id sheets params. split.
  - vm_compute. reflexivity.
  - apply (column_header_found_only_by_id by_id sheets params "y" "c1@last").
    vm_compute. reflexivity.
Defined.

(** Lines 204-205: the function raises [IndexError] exactly when
    [param_name] is a parameter and [sheet_index] is an integer outside
    [-len(sheets), len(sheets)); negative indices count from the end. *)
Theorem column_header_index_error_iff {ColumnHeader : Type}
    (get_column_header_by_id : Z -> string -> ColumnHeader)
    (sheets : list (list (string * ColumnHeader))) (params : list (string * graph_param))
    (param_name : string) :
  get_column_header_from_optional_column_id_graph_param ColumnHeader get_column_header_by_id
    sheets params param_name = PyIndexError <->
  exists i v,
    dict_lookup params "sheet_index" = Some (GInt i) /\
    dict_lookup params param_name = Some v /\
    (i < - Z.of_nat (List.length sheets) \/ Z.of_nat (List.length sheets) <= i).
Proof.
  unfold get_column_header_from_optional_column_id_graph_param.
  destruct (dict_lookup params "sheet_index") as [[i|s|]|].
  - destruct (dict_lookup params param_name) as [v|].
    + destruct (py_list_index sheets i) as [headers|] eqn:Hi.
      * split.
        -- destruct v as [z|id|]; try discriminate.
           destruct (dict_lookup headers id); discriminate.
        -- intros (i' & v' & E & _ & Hr). injection E as <-.
           apply py_list_index_none in Hr. congruence.
      * split; [|reflexivity]. intros _. exists i, v.
        split; [reflexivity|]. split; [reflexivity|].
        apply py_list_index_none. exact Hi.
    + split; [discriminate|]. intros (i' & v' & _ & E & _). discriminate.
  - destruct (dict_lookup params param_name); split; try discriminate;
      intros (i' & v' & E & E' & _); discriminate.
  - destruct (dict_lookup params param_name); split; try discriminate;
      intros (i' & v' & E & E' & _); discriminate.
  - split; [discriminate|]. intros (i' & v' & E & _). discriminate.
Qed.


End ColumnHeaderExtras.

(** ** param_dict_to_code *)

Module ParamExtraFacts.
Import ExtractFacts ParamFacts.

Lemma app_nil_str (s : string) : s ++ EmptyString = s.
Proof. induction s; cbn; f_equal; auto. Qed.

Lemma join_concat (sep : string) (es : list string) :
  forall e, e ++ concat_strs (map (fun x => sep ++ x) es) = join sep (e :: es).
Proof.
  induction es as [|x xs IH]; intros e; cbn [map concat_strs].
  - rewrite app_nil_str. reflexivity.
  - rewrite app_assoc_str, IH. reflexivity.
Qed.

Lemma str_repeat_empty (n : nat) : str_repeat EmptyString n = EmptyString.
Proof. induction n; cbn; auto. Qed.

Lemma has_newline_app (a b : string) :
  has_newline (a ++ b) = has_newline a || has_newline b.
Proof.
  unfold has_newline. induction a as [|c a IH]; cbn; [reflexivity|].
  rewrite IH, orb_assoc. reflexivity.
Qed.

Lemma has_newline_concat (l : list string) :
  (forall x, In x l -> has_newline x = false) -> has_newline (concat_strs l) = false.
Proof.
  induction l as [|x xs IH]; intros Hl; cbn [concat_strs]; [reflexivity|].
  rewrite has_newline_app, (Hl x (or_introl eq_refl)), IH; [reflexivity|].
  intros y Hy. apply Hl. right. exact Hy.
Qed.

Lemma dict_wrapped (a m t : string) :
  exists body, ("dict(" ++ a) ++ m ++ (a ++ t ++ ")") = "dict(" ++ body ++ ")".
Proof. exists (a ++ m ++ a ++ t). rewrite !app_assoc_str. reflexivity. Qed.

End ParamExtraFacts.

Module ParamExtras.
Import ExtractFacts ParamFacts ParamExtraFacts.

(** Lines 46-95, top level on a single line: the output is the entries
    joined by [", "], with no opening or closing text. *)
Theorem param_dict_to_code_top_single_line (conv : scalar -> string)
    (param_dict : list (string * param_value)) :
  param_dict_to_code conv param_dict 0 true =
  join ", " (map (entry_code conv 0) param_dict).
Proof.
  rewrite param_dict_to_code_layout. unfold param_dict_layout. cbv zeta.
  cbn [Nat.eqb]. rewrite str_repeat_empty.
  destruct param_dict as [|kv kvs]; [reflexivity|].
  cbn [map append]. rewrite app_nil_str.
  rewrite <- join_concat, map_map. reflexivity.
Qed.

(** Lines 46-95, top level on several lines: a non-empty dict gives a
    newline, then each entry after one [TAB], separated by [", "] and a
    newline, then a final newline. *)
Theorem param_dict_to_code_top_multi_line (conv : scalar -> string)
    (param_dict : list (string * param_value)) :
  param_dict <> [] ->
  param_dict_to_code conv param_dict 0 false =
  NEWLINE ++ TAB ++ join (", " ++ NEWLINE ++ TAB) (map (entry_code conv 0) param_dict)
  ++ NEWLINE.
Proof.
  intros Hne. rewrite param_dict_to_code_layout. unfold param_dict_layout. cbv zeta.
  cbn [Nat.eqb str_repeat]. rewrite app_nil_str.
  destruct param_dict as [|kv kvs]; [congruence|].
  rewrite (map_ext (fun kv' => ", " ++ NEWLINE ++ TAB ++ entry_code conv 0 kv')
             (fun kv' => (", " ++ NEWLINE ++ TAB) ++ entry_code conv 0 kv'))
    by (intros; rewrite !app_assoc_str; reflexivity).
  rewrite <- map_map with (f := entry_code conv 0)
    (g := fun x => (", " ++ NEWLINE ++ TAB) ++ x).
  rewrite join_concat. cbn [map]. rewrite !app_assoc_str. reflexivity.
Qed.

Lemma param_dict_to_code_top_multi_line_witness :
  [("x", PScalar (SInt 1)); ("y", PScalar SNone)] <> [] /\
  param_dict_to_code transpiled_literal [("x", PScalar (SInt 1)); ("y", PScalar SNone)] 0 false =
  NEWLINE ++ TAB ++ join (", " ++ NEWLINE ++ TAB)
    (map (entry_code transpiled_literal 0) [("x", PScalar (SInt 1)); ("y", PScalar SNone)])
  ++ NEWLINE.
Proof.
  split; [discriminate|].
  apply param_dict_to_code_top_multi_line. discriminate.
Defined.

(** Lines 46-95: below the top level the output is always
    [dict( ... )], in both modes. *)
Theorem param_dict_to_code_nested_wrapped (conv : scalar -> string)
    (param_dict : list (string * param_value)) (level : nat) (as_single_line : bool) :
  exists body,
    param_dict_to_code conv param_dict (S level) as_single_line = "dict(" ++ body ++ ")".
Proof.
  rewrite param_dict_to_code_layout. unfold param_dict_layout. cbv zeta.
  cbn [Nat.eqb]. apply dict_wrapped.
Qed.

(** Lines 46-95: in single-line mode a flat dict (every value a scalar)
    whose keys and literals contain no newline gives an output with no
    newline, at any level. *)
Theorem param_dict_to_code_flat_single_line (conv : scalar -> string)
    (param_dict : list (string * param_value)) (level : nat) :
  (forall kv, In kv param_dict ->
     exists v, snd kv = PScalar v /\ has_newline (fst kv) = false /\
               has_newline (conv v) = false) ->
  has_newline (param_dict_to_code conv param_dict level true) = false.
Proof.
  intros Hflat.
  assert (He : forall kv, In kv param_dict -> has_newline (entry_code conv level kv) = false).
  { intros [k p] Hin. destruct (Hflat _ Hin) as (v & Hv & Hk & Hc).
    cbn [snd fst] in Hv, Hk. subst p. cbn [entry_code].
    rewrite !has_newline_app, Hk, Hc. reflexivity. }
  rewrite param_dict_to_code_layout. unfold param_dict_layout. cbv zeta.
  rewrite !str_repeat_empty.
  assert (Hm : has_newline
    (match param_dict with
     | [] => EmptyString
     | kv :: kvs =>
         EmptyString ++ entry_code conv level kv ++
         concat_strs (map (fun kv' => ", " ++ EmptyString ++ EmptyString
                                      ++ entry_code conv level kv') kvs)
     end) = false).
  { destruct param_dict as [|kv kvs]; [reflexivity|].
    rewrite !has_newline_app, (He kv (or_introl eq_refl)).
    rewrite has_newline_concat; [reflexivity|]. intros x Hx. apply in_map_iff in Hx as (kv' & <- & Hin).
    rewrite !has_newline_app, (He kv' (or_intror Hin)). reflexivity. }
  destruct (Nat.eqb level 0);
    rewrite !has_newline_app, Hm; reflexivity.
Qed.

Lemma param_dict_to_code_flat_single_line_witness :
  (forall kv, In kv [("x", PScalar (SStr "a")); ("n", PScalar (SInt 3))] ->
     exists v, snd kv = PScalar v /\ has_newline (fst kv) = false /\
               has_newline (transpiled_literal v) = false) /\
  has_newline (param_dict_to_code transpiled_literal
                 [("x", PScalar (SStr "a")); ("n", PScalar (SInt 3))] 2 true) = false.
Proof.
  assert (H : forall kv, In kv [("x", PScalar (SStr "a")); ("n", PScalar (SInt 3))] ->
     exists v, snd kv = PScalar v /\ has_newline (fst kv) = false /\
               has_newline (transpiled_literal v) = false).
  { intros kv [<-|[<-|[]]]; eexists; (split; [reflexivity|]);
      split; vm_compute; reflexivity. }
  split; [exact H|].
  apply param_dict_to_code_flat_single_line. exact H.
Defined.

End ParamExtras.

(** ** get_html_and_script_from_figure *)

Module ExtractExtraFacts.
Import PyFacts ExtractFacts ParamExtraFacts.

Lemma string_snoc (s : string) :
  s <> EmptyString -> exists s' c, s = s' ++ String c EmptyString.
Proof.
  induction s as [|c s IH]; intros Hne; [congruence|].
  destruct s as [|c' s].
  - exists EmptyString, c. reflexivity.
  - destruct IH as (s' & d & E); [discriminate|].
    exists (String c s'), d. rewrite E. reflexivity.
Qed.



End ExtractExtraFacts.

Module ExtractExtras.
Import PyFacts ExtractFacts ExtractExtraFacts.

(** Line 178: when the document has a [<div id=] but no [</div>] after it,
    [find] gives [-1] for the end and the slice stops one character before
    the end of the document: the markup is the text from the marker on,
    without its last character. *)
Theorem graph_div_unclosed (p rest : string) :
  find0 DIV_OPEN (p ++ DIV_OPEN) = Some (String.length p) ->
  find0 DIV_CLOSE (DIV_OPEN ++ rest) = None ->
  exists c, DIV_OPEN ++ rest = graph_div (p ++ DIV_OPEN ++ rest) ++ String c EmptyString.
Proof.
  intros Hp Hc. unfold graph_div.
  assert (Hs : find (p ++ DIV_OPEN ++ rest) DIV_OPEN 0 = len p).
  { rewrite find_from_zero.
    replace (p ++ DIV_OPEN ++ rest) with ((p ++ DIV_OPEN) ++ rest)
      by (rewrite !app_assoc_str; reflexivity).
    rewrite (find0_app _ _ _ _ Hp). reflexivity. }
  rewrite Hs, find_shift, Hc.
  assert (Hlen : String.length (DIV_OPEN ++ rest) = (8 + String.length rest)%nat)
    by (rewrite length_app; reflexivity).
  destruct (string_snoc (DIV_OPEN ++ rest)) as (s' & c & E); [discriminate|].
  exists c. rewrite E in *. clear E Hp Hc Hs.
  rewrite length_app in Hlen. cbn [String.length] in Hlen.
  unfold slice, slice_bound. rewrite !len_app.
  change (len (String c EmptyString)) with 1.
  pose proof (len_nonneg p).
  replace (len p <? 0) with false by (symmetry; apply Z.ltb_ge; lia).
  replace (-1 <? 0) with true by reflexivity.
  rewrite Z.min_l by (pose proof (len_nonneg s'); lia).
  replace (Z.max 0 (-1 + (len p + (len s' + 1)))) with (len p + len s')
    by (pose proof (len_nonneg s'); lia).
  destruct (Z.ltb_spec (len p) (len p + len s')) as [L|L];
    [| unfold len in L; lia].
  replace (len p + len s' - len p) with (len s') by lia.
  unfold len. rewrite !Nat2Z.id, substring_app_l, substring_prefix. reflexivity.
Qed.

Lemma graph_div_unclosed_witness :
  find0 DIV_OPEN ("<div>" ++ DIV_OPEN) = Some (String.length "<div>") /\
  find0 DIV_CLOSE (DIV_OPEN ++ "'g'>") = None /\
  exists c, DIV_OPEN ++ "'g'>" = graph_div ("<div>" ++ DIV_OPEN ++ "'g'>") ++ String c EmptyString.
Proof.
  assert (H1 : find0 DIV_OPEN ("<div>" ++ DIV_OPEN) = Some (String.length "<div>"))
    by (vm_compute; reflexivity).
  assert (H2 : find0 DIV_CLOSE (DIV_OPEN ++ "'g'>") = None) by (vm_compute; reflexivity).
  split; [exact H1|]. split; [exact H2|].
  exact (graph_div_unclosed "<div>" "'g'>" H1 H2).
Defined.


End ExtractExtras.

(** ** get_new_graph_tab_name *)

Module NameExtraFacts.
Import NameFacts.

Lemma new_graph_tab_name_least (d : list (string * graph_data)) :
  let names := map (fun kv => graphTabName (snd kv)) d in
  exists N, get_new_graph_tab_name d = graph_name N /\ ~ In (graph_name N) names /\
    (forall k, (k < N)%nat -> In (graph_name k) names).
Proof.
  intros names.
  destruct (free_graph_name_exists names) as (m & Hm & Hfree).
  destruct (probe_graph_name_least (S (List.length names)) names 0)
    as (N & _ & Heq & HNfree & Hbefore).
  { exists m. split; [lia | exact Hfree]. }
  exists N. split; [exact Heq|]. split; [exact HNfree|].
  intros k Hk. apply Hbefore. lia.
Qed.

End NameExtraFacts.

Module NameExtras.
Import NameFacts NameExtraFacts.

(** Lines 128-144: when the tab names are exactly [graph0] .. [graph<n-1>],
    in any order and with repetitions, the new name is [graph<n>]. *)
Theorem new_graph_tab_name_after_consecutive (d : list (string * graph_data)) (n : nat) :
  (forall x, In x (map (fun kv => graphTabName (snd kv)) d) <->
             exists k, (k < n)%nat /\ x = graph_name k) ->
  get_new_graph_tab_name d = graph_name n.
Proof.
  intros Hset.
  destruct (new_graph_tab_name_least d) as (N & Heq & Hfree & Hbefore).
  rewrite Heq. f_equal.
  destruct (Nat.lt_trichotomy N n) as [Hlt|[Heqn|Hgt]]; [|exact Heqn|].
  - exfalso. apply Hfree. apply Hset. exists N. split; [exact Hlt | reflexivity].
  - exfalso. specialize (Hbefore n Hgt). apply Hset in Hbefore as (k & Hk & E).
    apply graph_name_inj in E. lia.
Qed.

Lemma new_graph_tab_name_after_consecutive_witness :
  let d := [("id1", {| graphTabName := graph_name 1 |});
            ("id0", {| graphTabName := graph_name 0 |});
            ("id2", {| graphTabName := graph_name 0 |})] in
  (forall x, In x (map (fun kv => graphTabName (snd kv)) d) <->
             exists k, (k < 2)%nat /\ x = graph_name k) /\
  get_new_graph_tab_name d = graph_name 2.
Proof.
  intros d.
  assert (H : forall x, In x (map (fun kv => graphTabName (snd kv)) d) <->
                        exists k, (k < 2)%nat /\ x = graph_name k).
  { intros x. cbn [map d snd graphTabName In]. split.
    - intros [<-|[<-|[<-|[]]]].
      + exists 1%nat. split; [lia | reflexivity].
      + exists 0%nat. split; [lia | reflexivity].
      + exists 0%nat. split; [lia | reflexivity].
    - intros (k & Hk & ->).
      destruct k as [|[|k]]; [right; left; reflexivity | left; reflexivity | lia]. }
  split; [exact H|].
  exact (new_graph_tab_name_after_consecutive d 2 H).
Defined.

(** Lines 128-144: the new name depends only on which names are taken, not
    on the order of the tabs, on repetitions or on the dict keys. *)
Theorem new_graph_tab_name_set_only (d d' : list (string * graph_data)) :
  (forall x, In x (map (fun kv => graphTabName (snd kv)) d) <->
             In x (map (fun kv => graphTabName (snd kv)) d')) ->
  get_new_graph_tab_name d = get_new_graph_tab_name d'.
Proof.
  intros Hset.
  destruct (new_graph_tab_name_least d) as (N & Heq & Hfree & Hbefore).
  destruct (new_graph_tab_name_least d') as (N' & Heq' & Hfree' & Hbefore').
  rewrite Heq, Heq'. f_equal.
  destruct (Nat.lt_trichotomy N N') as [Hlt|[E|Hgt]]; [|exact E|].
  - exfalso. apply Hfree. apply Hset. apply Hbefore'. exact Hlt.
  - exfalso. apply Hfree'. apply Hset. apply Hbefore. exact Hgt.
Qed.

Lemma new_graph_tab_name_set_only_witness :
  let d := [("a", {| graphTabName := "graph0" |}); ("b", {| graphTabName := "sales" |})] in
  let d' := [("x", {| graphTabName := "sales" |}); ("y", {| graphTabName := "graph0" |});
             ("z", {| graphTabName := "sales" |})] in
  (forall x, In x (map (fun kv => graphTabName (snd kv)) d) <->
             In x (map (fun kv => graphTabName (snd kv)) d')) /\
  get_new_graph_tab_name d = get_new_graph_tab_name d'.
Proof.
  intros d d'.
  assert (H : forall x, In x (map (fun kv => graphTabName (snd kv)) d) <->
                        In x (map (fun kv => graphTabName (snd kv)) d')).
  { intros x. cbn [map d d' snd graphTabName In]. tauto. }
  split; [exact H|].
  exact (new_graph_tab_name_set_only d d' H).
Defined.

(** Lines 128-144: once the returned name is taken, and no name is freed,
    the next name returned has a strictly larger number. *)
Theorem new_graph_tab_name_increases (d d' : list (string * graph_data)) :
  incl (map (fun kv => graphTabName (snd kv)) d) (map (fun kv => graphTabName (snd kv)) d') ->
  In (get_new_graph_tab_name d) (map (fun kv => graphTabName (snd kv)) d') ->
  exists N M, get_new_graph_tab_name d = graph_name N /\
              get_new_graph_tab_name d' = graph_name M /\ (N < M)%nat.
Proof.
  intros Hincl Hin.
  destruct (new_graph_tab_name_least d) as (N & Heq & Hfree & Hbefore).
  destruct (new_graph_tab_name_least d') as (M & Heq' & Hfree' & Hbefore').
  exists N, M. split; [exact Heq|]. split; [exact Heq'|].
  destruct (Nat.lt_trichotomy N M) as [Hlt|[E|Hgt]]; [exact Hlt| |].
  - exfalso. subst M. rewrite Heq in Hin. contradiction.
  - exfalso. apply Hfree'. apply Hincl. apply Hbefore. exact Hgt.
Qed.

Lemma new_graph_tab_name_increases_witness :
  let d := [("a", {| graphTabName := "graph1" |})] in
  let d' := [("a", {| graphTabName := "graph1" |}); ("b", {| graphTabName := "graph0" |})] in
  incl (map (fun kv => graphTabName (snd kv)) d) (map (fun kv => graphTabName (snd kv)) d') /\
  In (get_new_graph_tab_name d) (map (fun kv => graphTabName (snd kv)) d') /\
  exists N M, get_new_graph_tab_name d = graph_name N /\
              get_new_graph_tab_name d' = graph_name M /\ (N < M)%nat.
Proof.
  intros d d'.
  assert (H1 : incl (map (fun kv => graphTabName (snd kv)) d)
                    (map (fun kv => graphTabName (snd kv)) d')).
  { intros x. cbn [map d d' snd graphTabName In]. tauto. }
  assert (H2 : In (get_new_graph_tab_name d) (map (fun kv => graphTabName (snd kv)) d')).
  { change (get_new_graph_tab_name d) with (graph_name 0).
    cbn [map d' snd graphTabName In]. right. left. reflexivity. }
  split; [exact H1|]. split; [exact H2|].
  exact (new_graph_tab_name_increases d d' H1 H2).
Defined.

End NameExtras.
